(** * The [fxLayout] directive of flex-layout ([src/lib/flexbox/api/layout.ts])

    A shallow embedding of [LayoutDirective]: the two validators
    ([_validateValue], [_validateWrapValue]), the style builder ([_buildCSS])
    the update routine ([_updateWithDirection]) with the announcer it feeds,
    and the hooks that trigger it ([ngOnChanges], the media-query
    subscriber), followed by the properties the specification states about
    them and by further properties read off the code. *)

From Stdlib Require Import String Ascii List Bool NArith ZArith.
From stdpp Require Import base option strings gmap.
Import ListNotations.

Local Open Scope string_scope.
Local Open Scope list_scope.

(** ** The JavaScript fragment the directive uses *)

Module JS.

(** The values that reach the directive. [_updateWithDirection] declares
    its argument a [string], but the input setters and [_validateValue] take
    their argument untyped, so besides strings, [undefined] and [null] a
    bound value can be another primitive: a boolean or a number. Of the
    numbers the integers are modelled; the others behave here as one of
    them does (a truthy one as 1, [NaN] as 0). Objects are left out. *)
Inductive value : Type :=
| Undefined
| Null
| Bool (b : bool)
| Num (n : Z)
| Str (s : string).

(** [ToBoolean]: [undefined], [null], [false], zero and the empty string
    are falsy. *)
Definition truthy (v : value) : bool :=
  match v with
  | Str s => negb (String.eqb s "")
  | Bool b => b
  | Num n => negb (Z.eqb n 0)
  | Undefined | Null => false
  end.

(** [typeof v === 'string'] *)
Definition is_string (v : value) : bool :=
  match v with
  | Str _ => true
  | _ => false
  end.

(** [a || b] *)
Definition or (a b : value) : value := if truthy a then a else b.

(** [a === b] *)
Definition strict_eq (a b : value) : bool :=
  match a, b with
  | Undefined, Undefined => true
  | Null, Null => true
  | Bool b, Bool c => Bool.eqb b c
  | Num n, Num m => Z.eqb n m
  | Str s, Str t => String.eqb s t
  | _, _ => false
  end.

(** Exceptions: the only one this code can meet is the [TypeError] of
    calling a string method on a value that has none. *)
Inductive exn : Type := TypeError.

Inductive result (A : Type) : Type :=
| Ok (a : A)
| Raise (e : exn).
Arguments Ok {A} a.
Arguments Raise {A} e.

Definition bind {A B : Type} (m : result A) (k : A -> result B) : result B :=
  match m with
  | Ok a => k a
  | Raise e => Raise e
  end.

(** *** Strings

    A string is a sequence of code units; the model covers the code units
    below 256 (Basic Latin and Latin-1 Supplement), on which
    [String.prototype.toLowerCase] is closed: it adds 32 to the code of
    A-Z and of the Latin-1 capitals U+00C0-U+00DE other than the
    multiplication sign U+00D7, and leaves every other code unit alone. *)
Definition lower_code (n : N) : N :=
  if (N.leb 65 n && N.leb n 90)
     || (N.leb 192 n && N.leb n 222 && negb (N.eqb n 215))
  then (n + 32)%N else n.

Definition lower_char (c : ascii) : ascii :=
  ascii_of_N (lower_code (N_of_ascii c)).

Fixpoint toLowerCase (s : string) : string :=
  match s with
  | EmptyString => EmptyString
  | String c s' => String (lower_char c) (toLowerCase s')
  end.

(** Cut a string at every code unit that satisfies [p]; the pieces are what
    lies between the cuts, so there is always at least one piece and two
    cuts in a row leave an empty piece between them. *)
Fixpoint split_by (p : ascii -> bool) (s : string) : list string :=
  match s with
  | EmptyString => [EmptyString]
  | String c s' =>
      if p c then EmptyString :: split_by p s'
      else match split_by p s' with
           | [] => [String c EmptyString]
           | piece :: pieces => String c piece :: pieces
           end
  end.

(** [s.split(sep)] for a separator of one code unit. *)
Definition split (sep : ascii) (s : string) : list string :=
  split_by (Ascii.eqb sep) s.

(** [pieces.join(sep)] *)
Fixpoint join (sep : ascii) (pieces : list string) : string :=
  match pieces with
  | [] => EmptyString
  | [piece] => piece
  | piece :: rest => (piece ++ String sep (join sep rest))%string
  end.

(** Method calls: on a string they run; [undefined] and [null] have no
    properties, booleans and numbers have no such method, and the call
    throws. *)
Definition call_toLowerCase (v : value) : result value :=
  match v with
  | Str s => Ok (Str (toLowerCase s))
  | Undefined | Null | Bool _ | Num _ => Raise TypeError
  end.

Definition call_split (v : value) (sep : ascii) : result (list value) :=
  match v with
  | Str s => Ok (map Str (split sep s))
  | Undefined | Null | Bool _ | Num _ => Raise TypeError
  end.

(** [arr[i]]: reading past the end of an array gives [undefined]. *)
Definition index (arr : list value) (i : nat) : value := nth i arr Undefined.

(** [arr.find(p)]: the first element that satisfies [p], else [undefined]. *)
Definition find (p : value -> bool) (arr : list value) : value :=
  match List.find p arr with
  | Some x => x
  | None => Undefined
  end.

End JS.

Import JS.

#[global] Instance result_bind : MBind result := fun A B k m => JS.bind m k.
#[global] Instance result_ret : MRet result := @JS.Ok.

(** ** The directive's pure part *)

(** [export const LAYOUT_VALUES = ['row', 'column', 'row-reverse', 'column-reverse']] *)
Definition LAYOUT_VALUES : list value :=
  [Str "row"; Str "column"; Str "row-reverse"; Str "column-reverse"].

(** [_validateWrapValue(value)]: convert a wrap token to a flex-wrap value. *)
Definition _validateWrapValue (value : value) : result JS.value :=
  if negb (negb (truthy value)) then
    key ← call_toLowerCase value;
    Ok (if strict_eq key (Str "reverse")
           || strict_eq key (Str "wrap-reverse")
           || strict_eq key (Str "reverse-wrap")
        then Str "wrap-reverse"
        else if strict_eq key (Str "no")
                || strict_eq key (Str "none")
                || strict_eq key (Str "nowrap")
        then Str "nowrap"
        else Str "wrap")
  else Ok value.

(** [_validateValue(value)]: the pair [[direction, wrap]] of a raw input. *)
Definition _validateValue (value : value) : result (JS.value * JS.value) :=
  value ← (if truthy value then call_toLowerCase value else Ok (Str ""));
  parts ← call_split value " ";
  let direction := index parts 0 in
  let wrap := index parts 1 in
  let direction :=
    if negb (truthy (find (fun x => strict_eq x direction) LAYOUT_VALUES))
    then index LAYOUT_VALUES 0
    else direction in
  wrap ← _validateWrapValue wrap;
  Ok (direction, wrap).

(** [_buildCSS(direction, wrap = null)]: the style object, keyed by property
    name. The default parameter replaces an [undefined] argument by [null]. *)
Definition _buildCSS (direction wrap : value) : gmap string value :=
  let wrap := match wrap with Undefined => Null | _ => wrap end in
  <["display" := Str "flex"]>
  (<["box-sizing" := Str "border-box"]>
  (<["flex-direction" := direction]>
  (<["flex-wrap" := if negb (negb (truthy wrap)) then wrap else Null]> ∅))).

(** ** The collaborators *)

(** Modelled from the spec: the [BehaviorSubject] of rxjs behind [_announcer]
    is not among the sources. The specification describes it as a single-slot
    channel that delivers each pushed value to the existing subscribers and
    replays the latest one to a new subscriber. A subscriber is represented
    by the values it has received so far, oldest first. *)
Module BehaviorSubject.

Record t : Type := mk {
  _value : value;
  observers : list (list value)
}.

(** [new BehaviorSubject(v)] *)
Definition new (v : value) : t := {| _value := v; observers := [] |}.

(** [subject.next(v)] *)
Definition next (v : value) (subject : t) : t :=
  {| _value := v;
     observers := map (fun received => received ++ [v]) (observers subject) |}.

(** [subject.subscribe(observer)]: the new observer comes last. *)
Definition subscribe (subject : t) : t :=
  {| _value := _value subject;
     observers := observers subject ++ [[_value subject]] |}.

End BehaviorSubject.

(** Modelled from the spec: the media-query activation object ([./base] and
    the media-query subsystem are not among the sources); the directive reads
    one thing from it, its "activated input" value. *)
Record ResponsiveActivation : Type := {
  activatedInput : value
}.

(** Modelled from the spec: the base directive class [BaseFxDirective]
    ([./base], not among the sources), which caches the inputs by key,
    holds the optional media-query activation and applies style objects to
    the host element. [_styles] lists the style objects handed over for the
    host element, oldest first. *)
Record BaseFxDirective : Type := {
  _inputMap : gmap string value;
  _mqActivation : option ResponsiveActivation;
  _styles : list (gmap string value)
}.

(** Modelled from the spec: [_queryInput(key)] of the base class reads the
    input cache; a key never cached reads as [undefined]. *)
Definition _queryInput (key : string) (this : BaseFxDirective) : value :=
  default Undefined (_inputMap this !! key).

(** Modelled from the spec: [_cacheInput(key, val)] of the base class. *)
Definition _cacheInput (key : string) (val : value) (this : BaseFxDirective)
  : BaseFxDirective :=
  {| _inputMap := <[key := val]> (_inputMap this);
     _mqActivation := _mqActivation this;
     _styles := _styles this |}.

(** Modelled from the spec: [_applyStyleToElement(style)] of the base class
    hands the style object to the host element. *)
Definition _applyStyleToElement (style : gmap string value)
  (this : BaseFxDirective) : BaseFxDirective :=
  {| _inputMap := _inputMap this;
     _mqActivation := _mqActivation this;
     _styles := _styles this ++ [style] |}.

(** ** The directive *)

(** [class LayoutDirective extends BaseFxDirective] *)
Record LayoutDirective : Type := {
  super : BaseFxDirective;
  _announcer : BehaviorSubject.t
}.

(** [constructor(monitor, elRef, renderer)]: [base] is the object as
    [super(monitor, elRef, renderer)] leaves it. *)
Definition constructor (base : BaseFxDirective) : LayoutDirective :=
  {| super := base;
     _announcer := BehaviorSubject.new (Str "row") |}.

(** [layout$ = _announcer.asObservable()] is a view of the announcer itself:
    subscribing to it subscribes to the announcer. *)
Definition layout_subscribe (this : LayoutDirective) : LayoutDirective :=
  {| super := super this;
     _announcer := BehaviorSubject.subscribe (_announcer this) |}.

(** The [@Input('fxLayout') set layout(val)] setter. *)
Definition set_layout (val : value) (this : LayoutDirective) : LayoutDirective :=
  {| super := _cacheInput "layout" val (super this);
     _announcer := _announcer this |}.

(** [value || this._queryInput("layout") || 'row'], the first line of
    [_updateWithDirection]. *)
Definition fallback_value (value : value) (this : LayoutDirective) : JS.value :=
  JS.or (JS.or value (_queryInput "layout" (super this))) (Str "row").

(** The raw value [_updateWithDirection] settles on before validating it:
    the one above, replaced by the activated input when there is a
    media-query activation. *)
Definition resolve_value (value : value) (this : LayoutDirective) : JS.value :=
  let value := fallback_value value this in
  match _mqActivation (super this) with
  | Some activation => activatedInput activation
  | None => value
  end.

(** [_updateWithDirection(value?)]; an omitted argument is [Undefined]. *)
Definition _updateWithDirection (value : value) (this : LayoutDirective)
  : result LayoutDirective :=
  let value := resolve_value value this in
  validated ← _validateValue value;
  let direction := fst validated in
  let wrap := snd validated in
  let base := _applyStyleToElement (_buildCSS direction wrap) (super this) in
  Ok {| super := base;
        _announcer := BehaviorSubject.next direction (_announcer this) |}.

(** ** The normalizer in the specification's words

    "Lower-case it, split on whitespace into at most two tokens. First token
    selects direction: if it is not a member of the enumerated direction
    set, substitute row. Second token (if present) selects a wrap mode via a
    fixed mapping; absent token, unset." The separator test is a parameter,
    so that the same text can be read with "whitespace" and with the single
    space the code cuts at. *)

(** White space and line terminators among the code units below 256. *)
Definition is_whitespace (c : ascii) : bool :=
  existsb (N.eqb (N_of_ascii c)) [9; 10; 11; 12; 13; 32; 160]%N.

Definition direction_names : list string :=
  ["row"; "column"; "row-reverse"; "column-reverse"].

Definition is_direction (token : string) : bool :=
  existsb (String.eqb token) direction_names.

Definition wrap_of_token (token : string) : value :=
  if existsb (String.eqb token) ["reverse"; "wrap-reverse"; "reverse-wrap"]
  then Str "wrap-reverse"
  else if existsb (String.eqb token) ["no"; "none"; "nowrap"]
  then Str "nowrap"
  else if String.eqb token "" then Str ""
  else Str "wrap".

Definition raw_string (v : value) : string :=
  match v with
  | Str s => s
  | Undefined | Null | Bool _ | Num _ => ""
  end.

Definition normalize_on (is_separator : ascii -> bool) (v : value) : value * value :=
  let tokens := firstn 2 (JS.split_by is_separator (toLowerCase (raw_string v))) in
  let direction :=
    match tokens with
    | token :: _ => if is_direction token then token else "row"
    | [] => "row"
    end in
  let wrap :=
    match tokens with
    | _ :: token :: _ => wrap_of_token token
    | _ => Undefined
    end in
  (Str direction, wrap).

Definition spec_validateValue (v : value) : value * value :=
  normalize_on is_whitespace v.

(** ** Vocabulary of the statements *)

(** The raw values the validators go through with: strings, and falsy
    values, which [value ? value.toLowerCase() : ''] replaces by the empty
    string. On the others, truthy and without string methods, they throw. *)
Definition accepted (v : value) : bool := is_string v || negb (truthy v).

(** [free_of p s]: no code unit of [s] satisfies [p]. *)
Fixpoint free_of (p : ascii -> bool) (s : string) : bool :=
  match s with
  | EmptyString => true
  | String c s' => negb (p c) && free_of p s'
  end.

(** What the normalizer can return: one of the four directions, and a wrap
    that is absent, empty or one of the three flex-wrap values. *)
Definition wrap_results : list value :=
  [Undefined; Str ""; Str "wrap-reverse"; Str "nowrap"; Str "wrap"].

(** The first token of a raw input: what precedes its first space. *)
Definition first_token (s : string) : string := hd "" (split " " s).

(** A host element fresh from the base constructor: nothing cached, no
    media-query activation yet, no style applied. *)
Definition fresh_base : BaseFxDirective :=
  {| _inputMap := ∅; _mqActivation := None; _styles := [] |}.

Definition activated_base (input : value) : BaseFxDirective :=
  {| _inputMap := {["layout" := Str "column"]};
     _mqActivation := Some {| activatedInput := input |};
     _styles := [] |}.

(** A host element whose layout input was bound to the number 5. *)
Definition number_base : BaseFxDirective :=
  {| _inputMap := {["layout" := Num 5]}; _mqActivation := None; _styles := [] |}.

(** Tab-separated tokens. *)
Definition column_tab_wrap : string := "column" ++ String "009" "wrap".

(** The raw string of a validated pair: the direction alone when the wrap is
    not a string, else the direction, a space and the wrap. *)
Definition rebuild (validated : value * value) : value :=
  match validated with
  | (Str direction, Str wrap) => Str (direction ++ String " " wrap)
  | (direction, _) => direction
  end.

(** The same, counting the empty wrap as unset too. *)
Definition rebuild_truthy (validated : value * value) : value :=
  if truthy (snd validated) then rebuild validated else fst validated.

(** ** The lifecycle hooks *)

(** One entry of Angular's [SimpleChanges]: the values before and after. *)
Record SimpleChange : Type := {
  previousValue : value;
  currentValue : value
}.

(** [x != null] for a property read: a missing key reads as [undefined],
    which is loosely equal to [null]; an entry is an object and is not. *)
Definition not_null {A : Type} (entry : option A) : bool :=
  match entry with
  | Some _ => true
  | None => false
  end.

(** [ngOnChanges(changes)] *)
Definition ngOnChanges (changes : gmap string SimpleChange)
  (this : LayoutDirective) : result LayoutDirective :=
  if not_null (changes !! "layout") || not_null (_mqActivation (super this))
  then _updateWithDirection Undefined this
  else Ok this.

(** The [MediaChange] handed to the media-query subscriber; the directive
    reads its [value] only. *)
Module MediaChange.

Record t : Type := { value : JS.value }.

End MediaChange.

(** The subscriber [ngOnInit] registers:
    [(changes: MediaChange) => { this._updateWithDirection(changes.value); }] *)
Definition onMediaQueryChange (changes : MediaChange.t) (this : LayoutDirective)
  : result LayoutDirective :=
  _updateWithDirection (MediaChange.value changes) this.

(** What can happen to a directive once constructed: a change-detection run,
    a media-query change, a subscription to [layout$], and anything the base
    class and the framework do to the base part of the object (caching an
    input, building or dropping the activation, touching the host). *)
Inductive event : Type :=
| Changes (changes : gmap string SimpleChange)
| Media (changes : MediaChange.t)
| Subscribe
| Base (base : BaseFxDirective).

Definition step (e : event) (this : LayoutDirective) : result LayoutDirective :=
  match e with
  | Changes changes => ngOnChanges changes this
  | Media changes => onMediaQueryChange changes this
  | Subscribe => Ok (layout_subscribe this)
  | Base base => Ok {| super := base; _announcer := _announcer this |}
  end.

(** The directive after a hook was called on [this]. A hook that raises
    does so while validating (line 118), before the style is applied and the
    direction announced: the object is then as it was, and later events find
    it so. *)
Definition after (call : result LayoutDirective) (this : LayoutDirective)
  : LayoutDirective :=
  match call with
  | Ok this' => this'
  | Raise _ => this
  end.

Fixpoint run (events : list event) (this : LayoutDirective) : LayoutDirective :=
  match events with
  | [] => this
  | e :: rest => run rest (after (step e this) this)
  end.

(** The announcer holds a direction and has only ever delivered
    directions. *)
Definition announces_directions (subject : BehaviorSubject.t) : Prop :=
  In (BehaviorSubject._value subject) LAYOUT_VALUES
  /\ Forall (Forall (fun v => In v LAYOUT_VALUES))
       (BehaviorSubject.observers subject).

(** Two change records: the layout input changed, and a responsive input
    changed. *)
Definition layout_changed : gmap string SimpleChange :=
  {["layout" := {| previousValue := Undefined; currentValue := Str "column" |}]}.

Definition layoutXs_changed : gmap string SimpleChange :=
  {["layoutXs" := {| previousValue := Undefined; currentValue := Str "column" |}]}.

(** No space among the code units of [s]. *)
Definition space_free (s : string) : bool := free_of (Ascii.eqb " ") s.

(** The second piece of a raw input, empty when there is none. *)
Definition second_token (s : string) : string := nth 1 (split " " s) "".

(** ** Code units and strings *)

Section Strings.

Lemma lower_char_idem (c : ascii) : lower_char (lower_char c) = lower_char c.
Proof. destruct c as [[] [] [] [] [] [] [] []]; reflexivity. Qed.

(** Lower-casing neither makes nor removes a space. *)
Lemma lower_char_space (c : ascii) :
  Ascii.eqb " " (lower_char c) = Ascii.eqb " " c.
Proof. destruct c as [[] [] [] [] [] [] [] []]; reflexivity. Qed.

Lemma toLowerCase_idem (s : string) : toLowerCase (toLowerCase s) = toLowerCase s.
Proof.
  induction s as [|c s IH]; simpl; [reflexivity|].
  now rewrite lower_char_idem, IH.
Qed.

Lemma toLowerCase_empty (s : string) : toLowerCase s = "" -> s = "".
Proof. destruct s; [reflexivity | discriminate]. Qed.

Variable p : ascii -> bool.

Lemma split_by_cons (s : string) :
  exists piece pieces, split_by p s = piece :: pieces.
Proof.
  induction s as [|c s [piece [pieces IH]]]; simpl; [now eauto|].
  destruct (p c); [now eauto|]. rewrite IH. now eauto.
Qed.

(** The pieces hold no code unit the string was cut at. *)
Lemma split_by_free (s : string) : forallb (free_of p) (split_by p s) = true.
Proof.
  induction s as [|c s IH]; simpl; [reflexivity|].
  destruct (p c) eqn:Hc; simpl; [exact IH|].
  destruct (split_by p s) as [|piece pieces]; simpl in *.
  - now rewrite Hc.
  - now rewrite Hc.
Qed.

End Strings.

Lemma split_cons (sep : ascii) (s : string) :
  exists piece pieces, split sep s = piece :: pieces.
Proof. apply split_by_cons. Qed.

Lemma join_cons (sep : ascii) (piece next : string) (rest : list string) :
  join sep (piece :: next :: rest)
  = (piece ++ String sep (join sep (next :: rest)))%string.
Proof. reflexivity. Qed.

(** Joining the pieces with the separator gives the string back. *)
Lemma join_split (sep : ascii) (s : string) : join sep (split sep s) = s.
Proof.
  unfold split. induction s as [|c s IH]; [reflexivity|].
  destruct (split_by_cons (Ascii.eqb sep) s) as [piece [pieces E]].
  cbn [split_by]. rewrite E in *.
  destruct (Ascii.eqb sep c) eqn:Hc.
  - apply Ascii.eqb_eq in Hc. subst c.
    rewrite join_cons, IH. reflexivity.
  - destruct pieces as [|piece' pieces].
    + cbn [join] in *. now rewrite IH.
    + rewrite join_cons. rewrite join_cons in IH.
      rewrite <- IH. reflexivity.
Qed.

(** Cutting at spaces and lower-casing commute. *)
Lemma split_toLowerCase (s : string) :
  split " " (toLowerCase s) = map toLowerCase (split " " s).
Proof.
  unfold split. induction s as [|c s IH]; [reflexivity|].
  cbn [toLowerCase split_by]. rewrite lower_char_space, IH.
  destruct (Ascii.eqb " " c); [reflexivity|].
  destruct (split_by (Ascii.eqb " ") s); reflexivity.
Qed.

(** ** The validators against the wording of the specification *)

Lemma truthy_lower (s : string) : truthy (Str (toLowerCase s)) = truthy (Str s).
Proof. destruct s; reflexivity. Qed.

(** [LAYOUT_VALUES.find(x => x === direction)] is truthy exactly on the four
    direction names. *)
Lemma find_layout_value (token : string) :
  truthy (JS.find (fun x => strict_eq x (Str token)) LAYOUT_VALUES)
  = is_direction token.
Proof.
  unfold JS.find, LAYOUT_VALUES, is_direction, direction_names.
  cbn [List.find existsb strict_eq].
  rewrite !(String.eqb_sym token).
  repeat (match goal with
          | |- context [String.eqb ?a token] => destruct (String.eqb a token)
          end; [reflexivity|]).
  reflexivity.
Qed.

Lemma is_direction_elem (token : string) :
  is_direction token = true <-> In token direction_names.
Proof.
  unfold is_direction. rewrite existsb_exists. split.
  - intros [x [Hin Heq]]. apply String.eqb_eq in Heq. now subst.
  - intros Hin. exists token. split; [exact Hin | apply String.eqb_refl].
Qed.

(** On a string, the wrap validator is the mapping of the specification
    applied to the lower-cased token. *)
Lemma validateWrapValue_Str (s : string) :
  _validateWrapValue (Str s) = Ok (wrap_of_token (toLowerCase s)).
Proof.
  unfold _validateWrapValue. rewrite negb_involutive.
  destruct s as [|c s]; [reflexivity|].
  change (truthy (Str (String c s))) with true. cbn iota.
  change (call_toLowerCase (Str (String c s)))
    with (Ok (Str (toLowerCase (String c s)))).
  unfold mbind, result_bind, JS.bind, wrap_of_token.
  cbn [existsb strict_eq]. rewrite !orb_false_r.
  rewrite !(String.eqb_sym (toLowerCase (String c s))).
  change (String.eqb "" (toLowerCase (String c s))) with false.
  rewrite !orb_assoc. reflexivity.
Qed.

Lemma validateWrapValue_falsy (v : value) :
  truthy v = false -> _validateWrapValue v = Ok v.
Proof. intros H. unfold _validateWrapValue. now rewrite H. Qed.

(** On strings the code is the normalizer of the specification read with
    "cut at each space" for "split on whitespace". *)
Lemma validateValue_normalize_Str (s : string) :
  _validateValue (Str s) = Ok (normalize_on (Ascii.eqb " ") (Str s)).
Proof.
  assert (Hs : _validateValue (Str (toLowerCase s))
               = Ok (normalize_on (Ascii.eqb " ") (Str s))
               -> _validateValue (Str s)
                  = Ok (normalize_on (Ascii.eqb " ") (Str s))).
  { intros H. unfold _validateValue in *.
    rewrite truthy_lower in H. destruct (truthy (Str s)) eqn:Ht.
    - cbn [call_toLowerCase mbind result_bind JS.bind] in *.
      now rewrite toLowerCase_idem in H.
    - destruct s; [exact H | discriminate Ht]. }
  apply Hs. unfold _validateValue, normalize_on, raw_string.
  destruct (truthy (Str (toLowerCase s))) eqn:Ht.
  - cbn [call_toLowerCase call_split mbind result_bind JS.bind].
    rewrite toLowerCase_idem. fold (split " " (toLowerCase s)).
    rewrite split_toLowerCase.
    destruct (split_cons " " s) as [piece [pieces E]]. rewrite E.
    cbn [map JS.index nth firstn].
    rewrite find_layout_value.
    destruct pieces as [|token pieces].
    + cbn [map nth]. destruct (is_direction (toLowerCase piece)); reflexivity.
    + cbn [map nth]. rewrite validateWrapValue_Str, toLowerCase_idem.
      destruct (is_direction (toLowerCase piece)); reflexivity.
  - destruct s; [reflexivity | discriminate Ht].
Qed.

(** A falsy value is validated as the empty string is. *)
Lemma validateValue_falsy (v : value) :
  truthy v = false -> _validateValue v = Ok (Str "row", Undefined).
Proof. intros H. unfold _validateValue. rewrite H. reflexivity. Qed.

Lemma validateValue_normalize (v : value) :
  accepted v = true ->
  _validateValue v = Ok (normalize_on (Ascii.eqb " ") v).
Proof.
  destruct v as [| |[]|[]|s]; intros H;
    try discriminate H; try reflexivity.
  apply validateValue_normalize_Str.
Qed.

(** A truthy value that is not a string makes the validators throw. *)
Lemma validateValue_raises (v : value) :
  accepted v = false -> _validateValue v = Raise TypeError.
Proof.
  destruct v as [| |[]|[]|s]; intros H; try discriminate H; reflexivity.
Qed.

Lemma validateWrapValue_raises (v : value) :
  accepted v = false -> _validateWrapValue v = Raise TypeError.
Proof.
  destruct v as [| |[]|[]|s]; intros H; try discriminate H; reflexivity.
Qed.

Lemma wrap_of_token_range (token : string) : In (wrap_of_token token) wrap_results.
Proof.
  unfold wrap_of_token, wrap_results.
  repeat match goal with
         | |- context [if ?b then _ else _] => destruct b
         end; simpl; tauto.
Qed.

Lemma normalize_on_range (is_separator : ascii -> bool) (v : value) :
  exists direction,
    fst (normalize_on is_separator v) = Str direction
    /\ In direction direction_names
    /\ In (snd (normalize_on is_separator v)) wrap_results.
Proof.
  unfold normalize_on.
  destruct (firstn 2 (split_by is_separator (toLowerCase (raw_string v))))
    as [|token [|token' rest]]; cbn [fst snd].
  - exists "row". simpl. tauto.
  - destruct (is_direction token) eqn:Hd.
    + exists token. apply is_direction_elem in Hd. simpl. tauto.
    + exists "row". simpl. tauto.
  - destruct (is_direction token) eqn:Hd.
    + exists token. apply is_direction_elem in Hd.
      split; [reflexivity | split; [exact Hd | apply wrap_of_token_range]].
    + exists "row".
      split; [reflexivity | split; [simpl; tauto | apply wrap_of_token_range]].
Qed.

Lemma validateValue_range (v : value) :
  accepted v = true ->
  exists direction wrap,
    _validateValue v = Ok (Str direction, wrap)
    /\ In direction direction_names /\ In wrap wrap_results.
Proof.
  intros Hv.
  destruct (normalize_on_range (Ascii.eqb " ") v) as (d & Hd & Hin & Hw).
  exists d, (snd (normalize_on (Ascii.eqb " ") v)).
  rewrite validateValue_normalize by exact Hv. rewrite <- Hd.
  now destruct (normalize_on (Ascii.eqb " ") v).
Qed.

(** Whatever the normalizer returns is such a pair. *)
Lemma validateValue_Ok_range (v : value) (validated : value * value) :
  _validateValue v = Ok validated ->
  accepted v = true
  /\ exists direction wrap,
       validated = (Str direction, wrap)
       /\ In direction direction_names /\ In wrap wrap_results.
Proof.
  intros Hrun. destruct (accepted v) eqn:Hv.
  - split; [reflexivity|].
    destruct (validateValue_range v Hv) as (d & w & Hrun' & Hd & Hw).
    rewrite Hrun' in Hrun. injection Hrun as <-. now exists d, w.
  - rewrite validateValue_raises in Hrun by exact Hv. discriminate.
Qed.

Lemma direction_names_values (direction : string) :
  In direction direction_names -> In (Str direction) LAYOUT_VALUES.
Proof.
  unfold direction_names, LAYOUT_VALUES. simpl.
  intros [<-|[<-|[<-|[<-|[]]]]]; tauto.
Qed.

(** ** The normalizer: direction *)

Example first_token_mixed : first_token "Column-Reverse WRAP" = "Column-Reverse".
Proof. reflexivity. Qed.

Example validateValue_mixed_case :
  _validateValue (Str "Column-Reverse WRAP") = Ok (Str "column-reverse", Str "wrap").
Proof. reflexivity. Qed.

Example validateValue_diagonal :
  _validateValue (Str "diagonal") = Ok (Str "row", Undefined).
Proof. reflexivity. Qed.

Example validateValue_undefined : _validateValue Undefined = Ok (Str "row", Undefined).
Proof. reflexivity. Qed.

(** C1. For every input string the normalizer returns without raising, and
    its direction is the first token lower-cased when that is one of row,
    column, row-reverse and column-reverse (so a recognized token comes back
    whatever its letter case), and row for every other first token, the
    empty one included. *)
Theorem validateValue_direction (s : string) :
  exists direction wrap,
    _validateValue (Str s) = Ok (Str direction, wrap)
    /\ (In (toLowerCase (first_token s)) direction_names ->
        direction = toLowerCase (first_token s))
    /\ (~ In (toLowerCase (first_token s)) direction_names ->
        direction = "row").
Proof.
  rewrite validateValue_normalize_Str.
  unfold normalize_on, raw_string, first_token.
  fold (split " " (toLowerCase s)). rewrite split_toLowerCase.
  destruct (split_cons " " s) as [piece [pieces E]]. rewrite E.
  cbn [hd map].
  destruct (is_direction (toLowerCase piece)) eqn:Hd.
  - assert (Hin := proj1 (is_direction_elem _) Hd).
    destruct pieces as [|token pieces]; cbn [map firstn]; rewrite Hd;
      eexists _, _; (split; [reflexivity|]); split;
      [reflexivity | contradiction | reflexivity | contradiction].
  - assert (Hout : ~ In (toLowerCase piece) direction_names).
    { intros Hin. apply is_direction_elem in Hin. congruence. }
    destruct pieces as [|token pieces]; cbn [map firstn]; rewrite Hd;
      eexists _, _; (split; [reflexivity|]); split;
      [contradiction | reflexivity | contradiction | reflexivity].
Qed.

Lemma validateValue_direction_witness :
  exists wrap,
    _validateValue (Str "Column-Reverse WRAP") = Ok (Str "column-reverse", wrap).
Proof.
  destruct (validateValue_direction "Column-Reverse WRAP")
    as (direction & wrap & Hrun & Hknown & _).
  exists wrap. rewrite Hrun.
  rewrite Hknown; [reflexivity|]. vm_compute. tauto.
Defined.

(** ** The normalizer: wrap *)

Example validateWrapValue_upper : _validateWrapValue (Str "NONE") = Ok (Str "nowrap").
Proof. reflexivity. Qed.

Example validateWrapValue_other : _validateWrapValue (Str "wrap") = Ok (Str "wrap").
Proof. reflexivity. Qed.

(** C2, as stated, fails: an upper-case token is none of the six listed
    strings and is not empty, yet it is not mapped to wrap. *)
Lemma validateWrapValue_case_counterexample :
  "NO" <> ""
  /\ ~ In "NO" ["reverse"; "wrap-reverse"; "reverse-wrap"; "no"; "none"; "nowrap"]
  /\ _validateWrapValue (Str "NO") = Ok (Str "nowrap")
  /\ _validateWrapValue (Str "NO") <> Ok (Str "wrap").
Proof.
  repeat split; try discriminate.
  simpl. intros H. repeat (destruct H as [H|H]; [discriminate H|]). exact H.
Qed.

(** C2, amended. The wrap mapping is total on tokens, strings and falsy
    values, and looks at the lower-cased token: a string whose lower-case
    form is reverse, wrap-reverse or reverse-wrap maps to wrap-reverse; one
    whose lower-case form is no, none or nowrap maps to nowrap; every other
    non-empty string maps to wrap; a falsy token (absent or empty) is
    returned unchanged. *)
Theorem validateWrapValue_mapping :
  (forall s, exists w, _validateWrapValue (Str s) = Ok w)
  /\ (forall s, In (toLowerCase s) ["reverse"; "wrap-reverse"; "reverse-wrap"] ->
        _validateWrapValue (Str s) = Ok (Str "wrap-reverse"))
  /\ (forall s, In (toLowerCase s) ["no"; "none"; "nowrap"] ->
        _validateWrapValue (Str s) = Ok (Str "nowrap"))
  /\ (forall s, s <> "" ->
        ~ In (toLowerCase s)
            ["reverse"; "wrap-reverse"; "reverse-wrap"; "no"; "none"; "nowrap"] ->
        _validateWrapValue (Str s) = Ok (Str "wrap"))
  /\ (forall v, truthy v = false -> _validateWrapValue v = Ok v).
Proof.
  split; [|split; [|split; [|split]]].
  - intros s. rewrite validateWrapValue_Str. now eexists.
  - intros s H. rewrite validateWrapValue_Str.
    simpl in H. destruct H as [<-|[<-|[<-|[]]]]; reflexivity.
  - intros s H. rewrite validateWrapValue_Str.
    simpl in H. destruct H as [<-|[<-|[<-|[]]]]; reflexivity.
  - intros s Hne Hnot. rewrite validateWrapValue_Str. unfold wrap_of_token.
    destruct (existsb _ ["reverse"; _; _]) eqn:H1.
    { exfalso. apply Hnot. apply existsb_exists in H1 as [x [Hin Heq]].
      apply String.eqb_eq in Heq. subst x. simpl in *. tauto. }
    destruct (existsb _ ["no"; _; _]) eqn:H2.
    { exfalso. apply Hnot. apply existsb_exists in H2 as [x [Hin Heq]].
      apply String.eqb_eq in Heq. subst x. simpl in *. tauto. }
    destruct (String.eqb (toLowerCase s) "") eqn:H3; [|reflexivity].
    apply String.eqb_eq, toLowerCase_empty in H3. contradiction.
  - exact validateWrapValue_falsy.
Qed.

Lemma validateWrapValue_mapping_witness :
  _validateWrapValue (Str "Reverse-Wrap") = Ok (Str "wrap-reverse")
  /\ _validateWrapValue (Str "NoWrap") = Ok (Str "nowrap")
  /\ _validateWrapValue (Str "anything") = Ok (Str "wrap")
  /\ _validateWrapValue Undefined = Ok Undefined
  /\ _validateWrapValue (Str "") = Ok (Str "").
Proof.
  destruct validateWrapValue_mapping as (_ & Hrev & Hno & Hother & Hfalsy).
  split; [|split; [|split; [|split]]].
  - apply Hrev. vm_compute. tauto.
  - apply Hno. vm_compute. tauto.
  - apply Hother; [discriminate|]. vm_compute.
    intros H. repeat (destruct H as [H|H]; [discriminate H|]). exact H.
  - apply Hfalsy. reflexivity.
  - apply Hfalsy. reflexivity.
Defined.

(** ** The style builder *)

Example buildCSS_wrap :
  _buildCSS (Str "column") (Str "wrap") !! "flex-wrap" = Some (Str "wrap").
Proof. reflexivity. Qed.

Example buildCSS_unset :
  _buildCSS (Str "column") Undefined !! "flex-wrap" = Some Null.
Proof. reflexivity. Qed.

Lemma buildCSS_default_parameter (direction : value) :
  _buildCSS direction Undefined = _buildCSS direction Null.
Proof. reflexivity. Qed.

Lemma buildCSS_flex_wrap (direction wrap : value) :
  _buildCSS direction wrap !! "flex-wrap"
  = Some (if truthy wrap then wrap else Null).
Proof.
  unfold _buildCSS. rewrite !lookup_insert_ne by discriminate.
  rewrite lookup_insert_eq, negb_involutive. now destruct wrap.
Qed.

Lemma buildCSS_dom (direction wrap : value) :
  dom (_buildCSS direction wrap)
  = ({["display"; "box-sizing"; "flex-direction"; "flex-wrap"]} : gset string).
Proof.
  unfold _buildCSS. rewrite !dom_insert_L, dom_empty_L. set_solver.
Qed.

(** C4. The style builder is a function of its two arguments alone and
    returns exactly the four properties display: flex, box-sizing:
    border-box, flex-direction: the direction, and flex-wrap: the wrap when
    it is truthy and null otherwise; for the empty raw input the style is
    display: flex, box-sizing: border-box, flex-direction: row, flex-wrap:
    null. *)
Theorem buildCSS_exact (direction wrap : value) :
  _buildCSS direction wrap
  = list_to_map [("display", Str "flex");
                 ("box-sizing", Str "border-box");
                 ("flex-direction", direction);
                 ("flex-wrap", if truthy wrap then wrap else Null)]
  /\ dom (_buildCSS direction wrap)
     = ({["display"; "box-sizing"; "flex-direction"; "flex-wrap"]} : gset string)
  /\ exists d w,
       _validateValue (Str "") = Ok (d, w)
       /\ _buildCSS d w
          = list_to_map [("display", Str "flex");
                         ("box-sizing", Str "border-box");
                         ("flex-direction", Str "row");
                         ("flex-wrap", Null)].
Proof.
  split; [|split].
  - unfold _buildCSS. cbn [list_to_map foldr uncurry fst snd].
    rewrite negb_involutive. now destruct wrap.
  - apply buildCSS_dom.
  - exists (Str "row"), Undefined. split; reflexivity.
Qed.

(** C5, as stated, fails: with the wrap unset the key flex-wrap is still
    present in the style object, bound to null. *)
Lemma buildCSS_flex_wrap_present_counterexample :
  _buildCSS (Str "row") Undefined !! "flex-wrap" = Some Null
  /\ _buildCSS (Str "row") Undefined !! "flex-wrap" <> None.
Proof. split; [reflexivity | discriminate]. Qed.

(** C5, amended. The style builder always includes the flex-wrap key: it is
    bound to null whenever the wrap is unset (absent or empty) and to the
    wrap otherwise. *)
Theorem buildCSS_flex_wrap_always (direction wrap : value) :
  "flex-wrap" ∈ dom (_buildCSS direction wrap)
  /\ (truthy wrap = false -> _buildCSS direction wrap !! "flex-wrap" = Some Null)
  /\ (truthy wrap = true -> _buildCSS direction wrap !! "flex-wrap" = Some wrap).
Proof.
  split; [|split].
  - rewrite buildCSS_dom. set_solver.
  - intros H. now rewrite buildCSS_flex_wrap, H.
  - intros H. now rewrite buildCSS_flex_wrap, H.
Qed.

Lemma buildCSS_flex_wrap_always_witness :
  _buildCSS (Str "row") (Str "") !! "flex-wrap" = Some Null
  /\ _buildCSS (Str "row") (Str "nowrap") !! "flex-wrap" = Some (Str "nowrap").
Proof.
  split.
  - apply (buildCSS_flex_wrap_always (Str "row") (Str "")). reflexivity.
  - apply (buildCSS_flex_wrap_always (Str "row") (Str "nowrap")). reflexivity.
Defined.

(** ** The update routine *)

Example update_fresh :
  _updateWithDirection Undefined (constructor fresh_base)
  = Ok {| super := {| _inputMap := ∅; _mqActivation := None;
                      _styles := [_buildCSS (Str "row") Undefined] |};
          _announcer := BehaviorSubject.mk (Str "row") [] |}.
Proof. reflexivity. Qed.

Example update_activated :
  resolve_value (Str "column-reverse") (constructor (activated_base (Str "row-reverse wrap")))
  = Str "row-reverse wrap".
Proof. reflexivity. Qed.

(** The update routine is its last three lines run on the resolved value. *)
Lemma updateWithDirection_resolved (value : value) (this : LayoutDirective)
  (direction wrap : JS.value) :
  _validateValue (resolve_value value this) = Ok (direction, wrap) ->
  _updateWithDirection value this
  = Ok {| super := _applyStyleToElement (_buildCSS direction wrap) (super this);
          _announcer := BehaviorSubject.next direction (_announcer this) |}.
Proof. intros H. unfold _updateWithDirection. now rewrite H. Qed.

Lemma fallback_value_cases (value : value) (this : LayoutDirective) :
  fallback_value value this
  = if truthy value then value
    else if truthy (_queryInput "layout" (super this))
         then _queryInput "layout" (super this)
         else Str "row".
Proof.
  unfold fallback_value, JS.or.
  destruct (truthy value) eqn:Hv; [now rewrite Hv|].
  now destruct (truthy (_queryInput "layout" (super this))) eqn:Hq; rewrite ?Hq.
Qed.

Lemma updateWithDirection_raised (value : value) (this : LayoutDirective)
  (e : exn) :
  _validateValue (resolve_value value this) = Raise e ->
  _updateWithDirection value this = Raise e.
Proof. intros H. unfold _updateWithDirection. now rewrite H. Qed.

(** C3. In the update routine, when a media-query activation exists its
    activated input is the value that gets validated, whatever the argument
    and the cached layout input are: the update applies the style and
    announces the direction validated from the activated input, and raises
    if that validation raises. Without an activation the value validated is
    the argument, else the cached layout input, else row: when neither
    argument nor cached input is present the update applies the style of row
    and announces row. *)
Theorem updateWithDirection_precedence (value : value) (this : LayoutDirective) :
  (forall activation, _mqActivation (super this) = Some activation ->
     resolve_value value this = activatedInput activation
     /\ (forall direction wrap,
           _validateValue (activatedInput activation) = Ok (direction, wrap) ->
           _updateWithDirection value this
           = Ok {| super := _applyStyleToElement (_buildCSS direction wrap)
                              (super this);
                   _announcer := BehaviorSubject.next direction
                                   (_announcer this) |})
     /\ (forall e,
           _validateValue (activatedInput activation) = Raise e ->
           _updateWithDirection value this = Raise e)
     /\ (accepted (activatedInput activation) = true ->
         exists direction wrap,
           _validateValue (activatedInput activation) = Ok (direction, wrap)))
  /\ (_mqActivation (super this) = None ->
      truthy value = false ->
      truthy (_queryInput "layout" (super this)) = false ->
      resolve_value value this = Str "row"
      /\ _updateWithDirection value this
         = Ok {| super := _applyStyleToElement (_buildCSS (Str "row") Undefined)
                            (super this);
                 _announcer := BehaviorSubject.next (Str "row")
                                 (_announcer this) |})
  /\ (_mqActivation (super this) = None ->
      resolve_value value this = fallback_value value this
      /\ forall direction wrap,
           _validateValue (fallback_value value this) = Ok (direction, wrap) ->
           _updateWithDirection value this
           = Ok {| super := _applyStyleToElement (_buildCSS direction wrap)
                              (super this);
                   _announcer := BehaviorSubject.next direction
                                   (_announcer this) |})
  /\ (truthy value = false ->
      truthy (_queryInput "layout" (super this)) = false ->
      fallback_value value this = Str "row").
Proof.
  split; [|split; [|split]].
  - intros activation Hact.
    assert (Hres : resolve_value value this = activatedInput activation)
      by (unfold resolve_value; now rewrite Hact).
    split; [exact Hres|]. split; [|split].
    + intros d w Hrun. apply updateWithDirection_resolved. now rewrite Hres.
    + intros e Hrun. apply updateWithDirection_raised. now rewrite Hres.
    + intros Hok.
      destruct (validateValue_range _ Hok) as (d & w & Hrun & _).
      now exists (Str d), w.
  - intros Hnone Hv Hq.
    assert (Hres : resolve_value value this = Str "row").
    { unfold resolve_value. now rewrite Hnone, fallback_value_cases, Hv, Hq. }
    split; [exact Hres|].
    apply updateWithDirection_resolved. now rewrite Hres.
  - intros Hnone.
    assert (Hres : resolve_value value this = fallback_value value this)
      by (unfold resolve_value; now rewrite Hnone).
    split; [exact Hres|].
    intros d w Hrun. apply updateWithDirection_resolved. now rewrite Hres.
  - intros Hv Hq. now rewrite fallback_value_cases, Hv, Hq.
Qed.

Lemma updateWithDirection_precedence_witness :
  _updateWithDirection (Str "column-reverse")
    (constructor (activated_base (Str "row-reverse wrap")))
  = Ok {| super := _applyStyleToElement
                     (_buildCSS (Str "row-reverse") (Str "wrap"))
                     (activated_base (Str "row-reverse wrap"));
          _announcer := BehaviorSubject.next (Str "row-reverse")
                          (BehaviorSubject.new (Str "row")) |}
  /\ _updateWithDirection Undefined (constructor fresh_base)
     = Ok {| super := _applyStyleToElement (_buildCSS (Str "row") Undefined)
                        fresh_base;
             _announcer := BehaviorSubject.next (Str "row")
                             (BehaviorSubject.new (Str "row")) |}.
Proof.
  split.
  - destruct (updateWithDirection_precedence (Str "column-reverse")
                (constructor (activated_base (Str "row-reverse wrap"))))
      as (Hactivated & _).
    destruct (Hactivated {| activatedInput := Str "row-reverse wrap" |} eq_refl)
      as (_ & Hupdate & _).
    apply Hupdate. reflexivity.
  - destruct (updateWithDirection_precedence Undefined (constructor fresh_base))
      as (_ & Hdefault & _).
    apply Hdefault; reflexivity.
Defined.

(** C6. For the raw input "column reverse", given as the argument or cached
    as the layout input, with no media-query activation, the style applied
    to the host is display: flex, box-sizing: border-box, flex-direction:
    column, flex-wrap: wrap-reverse, and the value pushed into the announcer
    is column. *)
Theorem updateWithDirection_column_reverse (value : value) (this : LayoutDirective) :
  _mqActivation (super this) = None ->
  value = Str "column reverse"
  \/ (truthy value = false
      /\ _queryInput "layout" (super this) = Str "column reverse") ->
  exists this',
    _updateWithDirection value this = Ok this'
    /\ _styles (super this')
       = _styles (super this)
         ++ [list_to_map [("display", Str "flex");
                          ("box-sizing", Str "border-box");
                          ("flex-direction", Str "column");
                          ("flex-wrap", Str "wrap-reverse")]]
    /\ _announcer this' = BehaviorSubject.next (Str "column") (_announcer this)
    /\ BehaviorSubject._value (_announcer this') = Str "column".
Proof.
  intros Hnone Hraw.
  assert (Hres : resolve_value value this = Str "column reverse").
  { unfold resolve_value. rewrite Hnone, fallback_value_cases.
    destruct Hraw as [->|[Hv Hq]]; [reflexivity|]. now rewrite Hv, Hq. }
  eexists. split.
  - apply (updateWithDirection_resolved _ _ (Str "column") (Str "wrap-reverse")).
    now rewrite Hres.
  - repeat split.
Qed.

Lemma updateWithDirection_column_reverse_witness :
  exists this',
    _updateWithDirection Undefined
      (set_layout (Str "column reverse") (constructor fresh_base)) = Ok this'
    /\ BehaviorSubject._value (_announcer this') = Str "column".
Proof.
  destruct (updateWithDirection_column_reverse Undefined
              (set_layout (Str "column reverse") (constructor fresh_base)))
    as (this' & Hrun & _ & _ & Hvalue).
  - reflexivity.
  - right. split; reflexivity.
  - exists this'. split; assumption.
Defined.

(** ** The announcer *)

Lemma subscribe_receives (subject : BehaviorSubject.t) :
  last (BehaviorSubject.observers (BehaviorSubject.subscribe subject))
  = Some [BehaviorSubject._value subject].
Proof. unfold BehaviorSubject.subscribe. simpl. apply last_snoc. Qed.

Lemma subscribe_after_next (v : value) (subject : BehaviorSubject.t) :
  last (BehaviorSubject.observers
          (BehaviorSubject.subscribe (BehaviorSubject.next v subject)))
  = Some [v].
Proof. now rewrite subscribe_receives. Qed.

Example late_subscriber :
  BehaviorSubject.observers
    (BehaviorSubject.subscribe
       (BehaviorSubject.next (Str "column")
          (BehaviorSubject.next (Str "row-reverse")
             (BehaviorSubject.subscribe (BehaviorSubject.new (Str "row"))))))
  = [[Str "row"; Str "row-reverse"; Str "column"]; [Str "column"]].
Proof. reflexivity. Qed.

(** An update goes through exactly when the resolved value is a string or
    falsy, and then has this shape, for a direction and a wrap the
    normalizer can return. *)
Lemma updateWithDirection_shape (value : value) (this : LayoutDirective) :
  accepted (resolve_value value this) = true ->
  exists direction wrap,
    _validateValue (resolve_value value this) = Ok (Str direction, wrap)
    /\ In direction direction_names /\ In wrap wrap_results
    /\ _updateWithDirection value this
       = Ok {| super := _applyStyleToElement (_buildCSS (Str direction) wrap)
                          (super this);
               _announcer := BehaviorSubject.next (Str direction)
                               (_announcer this) |}.
Proof.
  intros Hok.
  destruct (validateValue_range (resolve_value value this) Hok)
    as (d & w & Hrun & Hd & Hw).
  exists d, w. repeat split; try assumption.
  now apply updateWithDirection_resolved.
Qed.

Lemma updateWithDirection_raises (value : value) (this : LayoutDirective) :
  accepted (resolve_value value this) = false ->
  _updateWithDirection value this = Raise TypeError.
Proof.
  intros Hno. apply updateWithDirection_raised. now apply validateValue_raises.
Qed.

Lemma updateWithDirection_Ok_accepted (value : value)
  (this this' : LayoutDirective) :
  _updateWithDirection value this = Ok this' ->
  accepted (resolve_value value this) = true.
Proof.
  intros Hrun. destruct (accepted (resolve_value value this)) eqn:Hok;
    [reflexivity|].
  rewrite updateWithDirection_raises in Hrun by exact Hok. discriminate.
Qed.

Example update_number :
  resolve_value Undefined (constructor number_base) = Num 5
  /\ _validateValue (Num 5) = Raise TypeError.
Proof. split; reflexivity. Qed.

(** C7, as stated, fails: with the number 5 bound to the layout input, the
    invocation raises at [value.toLowerCase()] and pushes nothing. *)
Lemma updateWithDirection_number_counterexample :
  _updateWithDirection Undefined (constructor number_base) = Raise TypeError
  /\ ~ (exists this',
          _updateWithDirection Undefined (constructor number_base) = Ok this').
Proof.
  split; [reflexivity|]. intros [this' H]. discriminate H.
Qed.

(** C7, amended. Every value an update pushes into the announcer is one of
    row, column, row-reverse and column-reverse. An invocation whose resolved
    raw value is a string or falsy returns normally and pushes exactly one
    value: each existing subscriber receives that one value more, and a
    subscriber that arrives afterwards receives it at once. An invocation
    whose resolved raw value is truthy and not a string raises a TypeError
    and pushes nothing. *)
Theorem updateWithDirection_announces (value : value) (this : LayoutDirective) :
  (accepted (resolve_value value this) = true ->
   exists direction this',
     _updateWithDirection value this = Ok this'
     /\ In direction LAYOUT_VALUES
     /\ _announcer this' = BehaviorSubject.next direction (_announcer this)
     /\ BehaviorSubject.observers (_announcer this')
        = map (fun received => received ++ [direction])
            (BehaviorSubject.observers (_announcer this))
     /\ last (BehaviorSubject.observers (_announcer (layout_subscribe this')))
        = Some [direction])
  /\ (accepted (resolve_value value this) = false ->
      _updateWithDirection value this = Raise TypeError)
  /\ (forall this',
        _updateWithDirection value this = Ok this' ->
        exists direction,
          In direction LAYOUT_VALUES
          /\ _announcer this' = BehaviorSubject.next direction (_announcer this)).
Proof.
  split; [|split].
  - intros Hok.
    destruct (updateWithDirection_shape value this Hok)
      as (d & w & _ & Hd & _ & Hrun).
    exists (Str d). eexists. split; [exact Hrun|].
    split; [now apply direction_names_values|].
    split; [reflexivity|]. split; [reflexivity|].
    cbn [layout_subscribe _announcer]. apply subscribe_after_next.
  - apply updateWithDirection_raises.
  - intros this' Hrun.
    destruct (updateWithDirection_shape value this
                (updateWithDirection_Ok_accepted _ _ _ Hrun))
      as (d & w & _ & Hd & _ & Hrun').
    rewrite Hrun' in Hrun. injection Hrun as <-.
    exists (Str d). split; [now apply direction_names_values | reflexivity].
Qed.

Lemma updateWithDirection_announces_witness :
  (exists direction this',
     _updateWithDirection (Str "Column wrap") (constructor fresh_base) = Ok this'
     /\ In direction LAYOUT_VALUES
     /\ _announcer this'
        = BehaviorSubject.next direction (BehaviorSubject.new (Str "row")))
  /\ _updateWithDirection Undefined (constructor number_base) = Raise TypeError.
Proof.
  split.
  - destruct (updateWithDirection_announces (Str "Column wrap")
                (constructor fresh_base)) as (Hone & _).
    destruct (Hone eq_refl) as (direction & this' & Hrun & Hd & Hnext & _).
    exists direction, this'. repeat split; assumption.
  - destruct (updateWithDirection_announces Undefined (constructor number_base))
      as (_ & Hraise & _).
    apply Hraise. reflexivity.
Defined.

(** C10. Right after construction, before any recomputation, the announcer
    holds row, no style has been applied by the directive, and a subscriber
    to the layout observable receives row. *)
Theorem constructor_announces_row (base : BaseFxDirective) :
  BehaviorSubject._value (_announcer (constructor base)) = Str "row"
  /\ _styles (super (constructor base)) = _styles base
  /\ BehaviorSubject.observers (_announcer (layout_subscribe (constructor base)))
     = [[Str "row"]].
Proof. repeat split. Qed.

(** ** The normalizer: tokens *)

Example validateValue_double_space :
  _validateValue (Str "column  nowrap") = Ok (Str "column", Str "").
Proof. reflexivity. Qed.

(** C8, as stated, fails: a tab is white space, but the code does not cut
    there, so the whole input is one unrecognized direction token. *)
Lemma validateValue_whitespace_counterexample :
  spec_validateValue (Str column_tab_wrap) = (Str "column", Str "wrap")
  /\ _validateValue (Str column_tab_wrap) = Ok (Str "row", Undefined)
  /\ _validateValue (Str column_tab_wrap)
     <> Ok (spec_validateValue (Str column_tab_wrap)).
Proof. split; [reflexivity | split; [reflexivity | discriminate]]. Qed.

(** C8, amended. For every raw input that is a string, possibly empty, or
    is undefined (or another falsy value, read as the empty string) the
    normalizer lower-cases it and cuts it at each single space character,
    and at no other white space: the pieces joined by spaces give the
    lower-cased input back and hold no space themselves. The first two
    pieces are the direction and wrap tokens; later pieces are ignored. *)
Theorem validateValue_tokens (v : value) :
  accepted v = true ->
  _validateValue v = Ok (normalize_on (Ascii.eqb " ") v)
  /\ join " " (split " " (toLowerCase (raw_string v))) = toLowerCase (raw_string v)
  /\ forallb (free_of (Ascii.eqb " ")) (split " " (toLowerCase (raw_string v)))
     = true.
Proof.
  intros Hv. split; [now apply validateValue_normalize|].
  split; [apply join_split | apply split_by_free].
Qed.

Lemma validateValue_tokens_witness :
  _validateValue (Str "Column NoWrap more")
  = Ok (normalize_on (Ascii.eqb " ") (Str "Column NoWrap more"))
  /\ _validateValue Undefined = Ok (normalize_on (Ascii.eqb " ") Undefined).
Proof.
  split.
  - apply (validateValue_tokens (Str "Column NoWrap more")). reflexivity.
  - apply (validateValue_tokens Undefined). reflexivity.
Defined.

(** ** The normalizer on its own output *)

Example rebuild_pair :
  rebuild (Str "column", Str "wrap-reverse") = Str "column wrap-reverse".
Proof. reflexivity. Qed.

Example rebuild_trailing_space :
  _validateValue (Str "Row ") = Ok (Str "row", Str "")
  /\ rebuild (Str "row", Str "") = Str "row "
  /\ rebuild_truthy (Str "row", Str "") = Str "row"
  /\ _validateValue (Str "row") = Ok (Str "row", Undefined).
Proof. repeat split. Qed.

Lemma validateWrapValue_results (w : value) :
  In w wrap_results -> _validateWrapValue w = Ok w.
Proof.
  unfold wrap_results. simpl.
  intros [<-|[<-|[<-|[<-|[<-|[]]]]]]; reflexivity.
Qed.

Lemma validateValue_rebuild (direction : string) (wrap : value) :
  In direction direction_names -> In wrap wrap_results ->
  _validateValue (rebuild (Str direction, wrap)) = Ok (Str direction, wrap).
Proof.
  unfold direction_names, wrap_results. simpl.
  intros [<-|[<-|[<-|[<-|[]]]]] [<-|[<-|[<-|[<-|[<-|[]]]]]]; reflexivity.
Qed.

Lemma validateValue_rebuild_truthy (direction : string) (wrap : value) :
  In direction direction_names -> In wrap wrap_results ->
  exists wrap',
    _validateValue (rebuild_truthy (Str direction, wrap)) = Ok (Str direction, wrap')
    /\ (wrap' = wrap \/ (truthy wrap' = false /\ truthy wrap = false))
    /\ _buildCSS (Str direction) wrap' = _buildCSS (Str direction) wrap.
Proof.
  unfold direction_names, wrap_results. simpl.
  intros [<-|[<-|[<-|[<-|[]]]]] [<-|[<-|[<-|[<-|[<-|[]]]]]];
    eexists; (split; [reflexivity|]); split;
    try reflexivity; try (left; reflexivity); right; split; reflexivity.
Qed.

(** C9. The normalizer is idempotent on its own output. If it returns the
    pair of a direction and a wrap, then on the string rebuilt from the pair
    (the direction alone when the wrap is unset, else the direction, one
    space and the wrap) it returns the same pair again. This holds with
    "unset" read as undefined, and with "unset" read as undefined or empty
    it holds up to which of the two unset wraps comes back, the style built
    from the pair being the same. The wrap validator is idempotent on
    everything it returns. *)
Theorem validateValue_idempotent :
  (forall v validated,
     _validateValue v = Ok validated ->
     _validateValue (rebuild validated) = Ok validated)
  /\ (forall v validated,
        _validateValue v = Ok validated ->
        exists wrap',
          _validateValue (rebuild_truthy validated) = Ok (fst validated, wrap')
          /\ (wrap' = snd validated
              \/ (truthy wrap' = false /\ truthy (snd validated) = false))
          /\ _buildCSS (fst validated) wrap'
             = _buildCSS (fst validated) (snd validated))
  /\ (forall v w,
        _validateWrapValue v = Ok w -> _validateWrapValue w = Ok w).
Proof.
  split; [|split].
  - intros v validated Hrun.
    destruct (validateValue_Ok_range v validated Hrun)
      as (_ & d & w & -> & Hd & Hw).
    now apply validateValue_rebuild.
  - intros v validated Hrun.
    destruct (validateValue_Ok_range v validated Hrun)
      as (_ & d & w & -> & Hd & Hw).
    now apply validateValue_rebuild_truthy.
  - intros v w Hrun. destruct v as [| |[]|[]|s];
      try discriminate Hrun; try (now injection Hrun as <-).
    rewrite validateWrapValue_Str in Hrun. injection Hrun as <-.
    apply validateWrapValue_results, wrap_of_token_range.
Qed.

Lemma validateValue_idempotent_witness :
  _validateValue (rebuild (Str "column", Str "wrap-reverse"))
  = Ok (Str "column", Str "wrap-reverse")
  /\ _validateWrapValue (Str "nowrap") = Ok (Str "nowrap").
Proof.
  destruct validateValue_idempotent as (Hpair & _ & Hwrap).
  split.
  - apply (Hpair (Str "COLUMN Reverse")). reflexivity.
  - apply (Hwrap (Str "None")). reflexivity.
Defined.

(** ** More on the normalizer: how the raw string is read *)

Lemma toLowerCase_app (s t : string) :
  toLowerCase (s ++ t) = (toLowerCase s ++ toLowerCase t)%string.
Proof. induction s as [|c s IH]; simpl; [reflexivity | now rewrite IH]. Qed.

Lemma space_free_lower (s : string) : space_free (toLowerCase s) = space_free s.
Proof.
  unfold space_free. induction s as [|c s IH]; [reflexivity|].
  cbn [toLowerCase free_of]. now rewrite lower_char_space, IH.
Qed.

(** A string without spaces is its own single piece. *)
Lemma split_space_free (s : string) : space_free s = true -> split " " s = [s].
Proof.
  unfold space_free, split. induction s as [|c s IH]; [reflexivity|].
  cbn [free_of split_by]. intros H. apply andb_prop in H as [Hc Hs].
  apply negb_true_iff in Hc. rewrite Hc, (IH Hs). reflexivity.
Qed.

(** A piece, a space, then the rest. *)
Lemma split_space_app (s t : string) :
  space_free s = true ->
  split " " (s ++ String " " t) = s :: split " " t.
Proof.
  unfold space_free, split. induction s as [|c s IH]; [reflexivity|].
  cbn [free_of]. intros H. apply andb_prop in H as [Hc Hs].
  apply negb_true_iff in Hc.
  change ((String c s ++ String " " t)%string)
    with (String c (s ++ String " " t)).
  cbn [split_by]. rewrite Hc, (IH Hs). reflexivity.
Qed.

(** The direction the normalizer gives to a token. *)
Lemma normalize_two_pieces (s : string) (piece token : string) (rest : list string) :
  split " " s = piece :: token :: rest ->
  _validateValue (Str s)
  = Ok (Str (if is_direction (toLowerCase piece) then toLowerCase piece else "row"),
        wrap_of_token (toLowerCase token)).
Proof.
  intros E. rewrite validateValue_normalize_Str.
  unfold normalize_on, raw_string.
  fold (split " " (toLowerCase s)). rewrite split_toLowerCase, E. reflexivity.
Qed.

Lemma normalize_one_piece (s : string) (piece : string) :
  split " " s = [piece] ->
  _validateValue (Str s)
  = Ok (Str (if is_direction (toLowerCase piece) then toLowerCase piece else "row"),
        Undefined).
Proof.
  intros E. rewrite validateValue_normalize_Str.
  unfold normalize_on, raw_string.
  fold (split " " (toLowerCase s)). rewrite split_toLowerCase, E. reflexivity.
Qed.

Example validateValue_leading_space :
  _validateValue (Str " column") = Ok (Str "row", Str "wrap").
Proof. reflexivity. Qed.

Example validateValue_three_tokens :
  _validateValue (Str "column nowrap reverse") = Ok (Str "column", Str "nowrap").
Proof. reflexivity. Qed.

(** X1. The normalizer reads its input through its lower-case form only:
    two raw values that are strings or falsy and have the same lower-case
    form, a falsy one counting as the empty string, are validated alike. *)
Theorem validateValue_case_insensitive (v v' : value) :
  accepted v = true -> accepted v' = true ->
  toLowerCase (raw_string v) = toLowerCase (raw_string v') ->
  _validateValue v = _validateValue v'.
Proof.
  intros Hv Hv' H. rewrite !validateValue_normalize by assumption.
  unfold normalize_on. now rewrite H.
Qed.

Lemma validateValue_case_insensitive_witness :
  _validateValue (Str "ROW-Reverse NoWrap") = _validateValue (Str "row-reverse nowrap")
  /\ _validateValue Null = _validateValue (Str "").
Proof.
  split; apply validateValue_case_insensitive; reflexivity.
Defined.

(** X2. Direction and wrap are read independently: for two tokens without
    spaces, the pair validated from "first second" has the direction
    validated from the first token alone, which comes with no wrap, and the
    wrap the wrap validator gives to the second token. *)
Theorem validateValue_two_tokens (s t : string) :
  space_free s = true -> space_free t = true ->
  exists direction wrap,
    _validateValue (Str s) = Ok (direction, Undefined)
    /\ _validateWrapValue (Str t) = Ok wrap
    /\ _validateValue (Str (s ++ String " " t)) = Ok (direction, wrap).
Proof.
  intros Hs Ht. eexists _, _. split; [|split].
  - apply normalize_one_piece. now apply split_space_free.
  - apply validateWrapValue_Str.
  - apply (normalize_two_pieces _ s t []).
    rewrite split_space_app by exact Hs. now rewrite split_space_free.
Qed.

Lemma validateValue_two_tokens_witness :
  exists direction wrap,
    _validateValue (Str "Column") = Ok (direction, Undefined)
    /\ _validateWrapValue (Str "Reverse") = Ok wrap
    /\ _validateValue (Str "Column Reverse") = Ok (direction, wrap).
Proof.
  apply (validateValue_two_tokens "Column" "Reverse"); reflexivity.
Defined.

(** X3. What follows the second token is ignored: after two tokens without
    spaces, a space and any further text leave the validated pair as it
    is. *)
Theorem validateValue_extra_tokens_ignored (s t u : string) :
  space_free s = true -> space_free t = true ->
  _validateValue (Str (s ++ String " " (t ++ String " " u)))
  = _validateValue (Str (s ++ String " " t)).
Proof.
  intros Hs Ht.
  rewrite (normalize_two_pieces _ s t (split " " u)).
  - rewrite (normalize_two_pieces _ s t []); [reflexivity|].
    rewrite split_space_app by exact Hs. now rewrite split_space_free.
  - rewrite split_space_app by exact Hs. now rewrite split_space_app.
Qed.

Lemma validateValue_extra_tokens_ignored_witness :
  _validateValue (Str "column nowrap reverse and more")
  = _validateValue (Str "column nowrap").
Proof.
  apply (validateValue_extra_tokens_ignored "column" "nowrap" "reverse and more");
    reflexivity.
Defined.

(** X4. A space that directly follows the space after the direction token,
    or ends the input there, hides the wrap: the wrap returned is the empty
    string whatever text comes next, and the style built is the one of the
    direction token alone. *)
Theorem validateValue_double_space_hides_wrap (s u : string) :
  space_free s = true ->
  exists direction,
    _validateValue (Str s) = Ok (direction, Undefined)
    /\ _validateValue (Str (s ++ String " " "")) = Ok (direction, Str "")
    /\ _validateValue (Str (s ++ String " " (String " " u))) = Ok (direction, Str "")
    /\ _buildCSS direction (Str "") = _buildCSS direction Undefined.
Proof.
  intros Hs. eexists. split; [|split; [|split]].
  - apply normalize_one_piece. now apply split_space_free.
  - apply (normalize_two_pieces _ s "" []).
    now rewrite split_space_app by exact Hs.
  - apply (normalize_two_pieces _ s "" (split " " u)).
    rewrite split_space_app by exact Hs. reflexivity.
  - reflexivity.
Qed.

Lemma validateValue_double_space_hides_wrap_witness :
  exists direction,
    _validateValue (Str "column") = Ok (direction, Undefined)
    /\ _validateValue (Str "column  wrap-reverse") = Ok (direction, Str "").
Proof.
  destruct (validateValue_double_space_hides_wrap "column" "wrap-reverse")
    as (direction & Hone & _ & Htwo & _); [reflexivity|].
  exists direction. split; assumption.
Defined.

(** X5. A raw input that starts with a space has an empty direction token:
    the direction returned is row, and the first word is read as the wrap
    token. *)
Theorem validateValue_leading_space_row (s : string) :
  exists wrap,
    _validateWrapValue (Str (first_token s)) = Ok wrap
    /\ _validateValue (Str (String " " s)) = Ok (Str "row", wrap).
Proof.
  unfold first_token. destruct (split_cons " " s) as [piece [pieces E]].
  rewrite E. cbn [hd]. eexists. split.
  - apply validateWrapValue_Str.
  - rewrite (normalize_two_pieces _ "" piece pieces); [reflexivity|].
    rewrite <- E. reflexivity.
Qed.

(** X6. Through the normalizer and the style builder, flex-wrap is null
    exactly when the raw input has no second token or an empty one, and is
    one of wrap-reverse, nowrap and wrap otherwise. *)
Theorem validateValue_flex_wrap (s : string) :
  exists direction wrap,
    _validateValue (Str s) = Ok (direction, wrap)
    /\ (second_token s = "" ->
        _buildCSS direction wrap !! "flex-wrap" = Some Null)
    /\ (second_token s <> "" ->
        In (_buildCSS direction wrap !! "flex-wrap")
           [Some (Str "wrap-reverse"); Some (Str "nowrap"); Some (Str "wrap")]).
Proof.
  unfold second_token. destruct (split_cons " " s) as [piece [pieces E]].
  rewrite E. destruct pieces as [|token pieces]; cbn [nth].
  - eexists _, _. split; [exact (normalize_one_piece _ _ E)|].
    rewrite buildCSS_flex_wrap. split; [reflexivity | congruence].
  - eexists _, _. split; [exact (normalize_two_pieces _ _ _ _ E)|].
    rewrite buildCSS_flex_wrap. split.
    + intros ->. reflexivity.
    + intros Hne. unfold wrap_of_token.
      destruct (existsb _ ["reverse"; _; _]); [simpl; tauto|].
      destruct (existsb _ ["no"; _; _]); [simpl; tauto|].
      destruct (String.eqb (toLowerCase token) "") eqn:Hempty; [|simpl; tauto].
      apply String.eqb_eq, toLowerCase_empty in Hempty. contradiction.
Qed.

Lemma validateValue_flex_wrap_witness :
  exists direction wrap,
    _validateValue (Str "row Anything") = Ok (direction, wrap)
    /\ In (_buildCSS direction wrap !! "flex-wrap")
          [Some (Str "wrap-reverse"); Some (Str "nowrap"); Some (Str "wrap")].
Proof.
  destruct (validateValue_flex_wrap "row Anything")
    as (direction & wrap & Hrun & _ & Hset).
  exists direction, wrap. split; [exact Hrun|].
  apply Hset. vm_compute. discriminate.
Defined.

(** X14. The validators raise a TypeError exactly on the values that are
    truthy and not strings (a number other than zero, [true]), where
    [value.toLowerCase] is not a function; on every string and on every
    falsy value they return. *)
Theorem validators_raise_iff (v : value) :
  (_validateValue v = Raise TypeError
   <-> truthy v = true /\ is_string v = false)
  /\ ((exists validated, _validateValue v = Ok validated)
      <-> is_string v = true \/ truthy v = false)
  /\ (_validateWrapValue v = Raise TypeError
      <-> truthy v = true /\ is_string v = false)
  /\ ((exists wrap, _validateWrapValue v = Ok wrap)
      <-> is_string v = true \/ truthy v = false).
Proof.
  assert (Hacc : accepted v = true <-> is_string v = true \/ truthy v = false).
  { unfold accepted. rewrite orb_true_iff, negb_true_iff. tauto. }
  assert (Hrej : accepted v = false <-> truthy v = true /\ is_string v = false).
  { unfold accepted. rewrite orb_false_iff, negb_false_iff. tauto. }
  rewrite <- Hacc, <- Hrej. destruct (accepted v) eqn:Hv.
  - destruct (validateValue_range v Hv) as (d & w & Hrun & _).
    assert (Hwrap : exists wrap, _validateWrapValue v = Ok wrap).
    { destruct v as [| |[]|[]|s]; try discriminate Hv;
        try (eexists; reflexivity).
      rewrite validateWrapValue_Str. now eexists. }
    destruct Hwrap as [wrap Hwrap]. rewrite Hrun, Hwrap.
    repeat split; intros; try discriminate; try reflexivity; now eexists.
  - rewrite (validateValue_raises v Hv), (validateWrapValue_raises v Hv).
    repeat split; intros H; try reflexivity; try discriminate;
      destruct H; discriminate.
Qed.

Lemma validators_raise_iff_witness :
  _validateValue (Num 5) = Raise TypeError
  /\ _validateWrapValue (Bool true) = Raise TypeError
  /\ exists validated, _validateValue (Num 0) = Ok validated.
Proof.
  split; [|split].
  - apply (validators_raise_iff (Num 5)). split; reflexivity.
  - apply (validators_raise_iff (Bool true)). split; reflexivity.
  - apply (validators_raise_iff (Num 0)). right. reflexivity.
Defined.

(** ** More on the update routine *)

Lemma buildCSS_flex_wrap_range (direction wrap : value) :
  In wrap wrap_results ->
  In (_buildCSS direction wrap !! "flex-wrap")
     [Some Null; Some (Str "wrap-reverse"); Some (Str "nowrap"); Some (Str "wrap")].
Proof.
  rewrite buildCSS_flex_wrap. unfold wrap_results. simpl.
  intros [<-|[<-|[<-|[<-|[<-|[]]]]]]; simpl; tauto.
Qed.

(** X7. An update raises a TypeError exactly when the resolved raw value is
    truthy and not a string, and returns in every other case. When it
    returns it has handed exactly one more style object to the host and has
    left the cached inputs, the media-query activation and the number of
    subscribers as they were. *)
Theorem updateWithDirection_raises_iff (value : value) (this : LayoutDirective) :
  (_updateWithDirection value this = Raise TypeError
   <-> truthy (resolve_value value this) = true
       /\ is_string (resolve_value value this) = false)
  /\ ((exists this', _updateWithDirection value this = Ok this')
      <-> is_string (resolve_value value this) = true
          \/ truthy (resolve_value value this) = false)
  /\ (forall this',
        _updateWithDirection value this = Ok this' ->
        exists style,
          _styles (super this') = _styles (super this) ++ [style]
          /\ _inputMap (super this') = _inputMap (super this)
          /\ _mqActivation (super this') = _mqActivation (super this)
          /\ length (BehaviorSubject.observers (_announcer this'))
             = length (BehaviorSubject.observers (_announcer this))).
Proof.
  assert (Hacc : accepted (resolve_value value this) = true
                 <-> is_string (resolve_value value this) = true
                     \/ truthy (resolve_value value this) = false).
  { unfold accepted. rewrite orb_true_iff, negb_true_iff. tauto. }
  split; [|split].
  - split.
    + intros Hraise. destruct (accepted (resolve_value value this)) eqn:Hok.
      * destruct (updateWithDirection_shape value this Hok)
          as (d & w & _ & _ & _ & Hrun).
        rewrite Hrun in Hraise. discriminate.
      * unfold accepted in Hok. apply orb_false_iff in Hok as [Hs Ht].
        apply negb_false_iff in Ht. now split.
    + intros [Ht Hs]. apply updateWithDirection_raises.
      unfold accepted. now rewrite Hs, Ht.
  - rewrite <- Hacc. split.
    + intros [this' Hrun]. exact (updateWithDirection_Ok_accepted _ _ _ Hrun).
    + intros Hok. destruct (updateWithDirection_shape value this Hok)
        as (d & w & _ & _ & _ & Hrun).
      rewrite Hrun. now eexists.
  - intros this' Hrun.
    destruct (updateWithDirection_shape value this
                (updateWithDirection_Ok_accepted _ _ _ Hrun))
      as (d & w & _ & _ & _ & Hrun').
    rewrite Hrun' in Hrun. injection Hrun as <-.
    eexists.
    cbn [super _announcer _applyStyleToElement _inputMap _mqActivation _styles
         BehaviorSubject.next BehaviorSubject.observers].
    repeat split. apply length_map.
Qed.

Lemma updateWithDirection_raises_iff_witness :
  _updateWithDirection Undefined (constructor number_base) = Raise TypeError
  /\ exists this' style,
       _updateWithDirection (Str "column") (constructor number_base) = Ok this'
       /\ _styles (super this') = [style].
Proof.
  split.
  - apply (updateWithDirection_raises_iff Undefined (constructor number_base)).
    split; reflexivity.
  - destruct (updateWithDirection_raises_iff (Str "column")
                (constructor number_base)) as (_ & Hreturns & Hframe).
    destruct (proj2 Hreturns (or_introl eq_refl)) as [this' Hrun].
    destruct (Hframe this' Hrun) as (style & Hstyles & _).
    exists this', style. split; assumption.
Defined.

(** X8. The style an update hands to the host and the direction it
    announces agree and are valid CSS: whenever an update returns, which it
    does for every resolved value that is a string or falsy, the style has
    display flex, box-sizing border-box, as flex-direction the announced
    value, which is one of the four directions, and as flex-wrap null,
    wrap-reverse, nowrap or wrap. *)
Theorem updateWithDirection_style_valid (value : value) (this : LayoutDirective) :
  (accepted (resolve_value value this) = true ->
   exists this', _updateWithDirection value this = Ok this')
  /\ (forall this',
        _updateWithDirection value this = Ok this' ->
        exists style,
          last (_styles (super this')) = Some style
          /\ style !! "flex-direction"
             = Some (BehaviorSubject._value (_announcer this'))
          /\ In (BehaviorSubject._value (_announcer this')) LAYOUT_VALUES
          /\ In (style !! "flex-wrap")
                [Some Null; Some (Str "wrap-reverse"); Some (Str "nowrap");
                 Some (Str "wrap")]
          /\ style !! "display" = Some (Str "flex")
          /\ style !! "box-sizing" = Some (Str "border-box")).
Proof.
  split.
  - intros Hok. destruct (updateWithDirection_shape value this Hok)
      as (d & w & _ & _ & _ & Hrun).
    rewrite Hrun. now eexists.
  - intros this' Hrun.
    destruct (updateWithDirection_shape value this
                (updateWithDirection_Ok_accepted _ _ _ Hrun))
      as (d & w & _ & Hd & Hw & Hrun').
    rewrite Hrun' in Hrun. injection Hrun as <-.
    exists (_buildCSS (Str d) w).
    cbn [super _announcer _applyStyleToElement _styles
         BehaviorSubject.next BehaviorSubject._value].
    split; [apply last_snoc|]. split; [reflexivity|].
    split; [now apply direction_names_values|].
    split; [now apply buildCSS_flex_wrap_range|].
    split; reflexivity.
Qed.

Lemma updateWithDirection_style_valid_witness :
  exists this' style,
    _updateWithDirection (Str "Column Reverse") (constructor fresh_base) = Ok this'
    /\ last (_styles (super this')) = Some style
    /\ style !! "flex-direction"
       = Some (BehaviorSubject._value (_announcer this')).
Proof.
  destruct (updateWithDirection_style_valid (Str "Column Reverse")
              (constructor fresh_base)) as (Hreturns & Hvalid).
  destruct (Hreturns eq_refl) as [this' Hrun].
  destruct (Hvalid this' Hrun) as (style & Hlast & Hdir & _).
  exists this', style. repeat split; assumption.
Defined.

(** X9. Updates are repeatable: when nothing else touched the directive, a
    second update with the same argument hands the host the same style
    again and announces the same direction again. *)
Theorem updateWithDirection_repeat (value : value) (this this' : LayoutDirective) :
  _updateWithDirection value this = Ok this' ->
  exists this'' style,
    _updateWithDirection value this' = Ok this''
    /\ _styles (super this') = _styles (super this) ++ [style]
    /\ _styles (super this'') = _styles (super this) ++ [style; style]
    /\ BehaviorSubject._value (_announcer this'')
       = BehaviorSubject._value (_announcer this').
Proof.
  intros Hfirst.
  destruct (updateWithDirection_shape value this
              (updateWithDirection_Ok_accepted _ _ _ Hfirst))
    as (d & w & Hval & _ & _ & Hrun).
  rewrite Hrun in Hfirst. injection Hfirst as <-.
  eexists _, (_buildCSS (Str d) w). split.
  - apply (updateWithDirection_resolved _ _ (Str d) w).
    rewrite <- Hval. reflexivity.
  - cbn [super _announcer _applyStyleToElement _styles
         BehaviorSubject.next BehaviorSubject._value].
    split; [reflexivity|]. split; [|reflexivity].
    now rewrite <- app_assoc.
Qed.

Lemma updateWithDirection_repeat_witness :
  exists this' this'',
    _updateWithDirection (Str "column wrap") (constructor fresh_base) = Ok this'
    /\ _updateWithDirection (Str "column wrap") this' = Ok this''
    /\ BehaviorSubject._value (_announcer this'')
       = BehaviorSubject._value (_announcer this').
Proof.
  eexists. 
  destruct (updateWithDirection_repeat (Str "column wrap") (constructor fresh_base)
              _ eq_refl) as (this'' & style & Hrun & _ & _ & Hvalue).
  exists this''. split; [reflexivity|]. split; assumption.
Defined.

(** X10. Under a media-query activation whose activated input is falsy
    (undefined, null or empty), the update falls back to row with no wrap:
    neither the argument nor the cached layout input is consulted. *)
Theorem updateWithDirection_falsy_activation
  (value : value) (this : LayoutDirective) (activation : ResponsiveActivation) :
  _mqActivation (super this) = Some activation ->
  truthy (activatedInput activation) = false ->
  _updateWithDirection value this
  = Ok {| super := _applyStyleToElement (_buildCSS (Str "row") Undefined)
                     (super this);
          _announcer := BehaviorSubject.next (Str "row") (_announcer this) |}.
Proof.
  intros Hact Hfalsy. apply updateWithDirection_resolved.
  unfold resolve_value. rewrite Hact.
  now apply validateValue_falsy.
Qed.

Lemma updateWithDirection_falsy_activation_witness :
  _updateWithDirection (Str "column-reverse") (constructor (activated_base (Str "")))
  = Ok {| super := _applyStyleToElement (_buildCSS (Str "row") Undefined)
                     (activated_base (Str ""));
          _announcer := BehaviorSubject.next (Str "row")
                          (BehaviorSubject.new (Str "row")) |}.
Proof.
  apply (updateWithDirection_falsy_activation (Str "column-reverse")
           (constructor (activated_base (Str "")))
           {| activatedInput := Str "" |}); reflexivity.
Defined.

(** X11. A falsy argument (null or the empty string) is treated as an
    omitted one: the update falls through to the cached layout input. *)
Theorem updateWithDirection_falsy_argument (value : value) (this : LayoutDirective) :
  truthy value = false ->
  _updateWithDirection value this = _updateWithDirection Undefined this.
Proof.
  intros Hfalsy. unfold _updateWithDirection.
  assert (E : resolve_value value this = resolve_value Undefined this).
  { unfold resolve_value, fallback_value, JS.or. now rewrite Hfalsy. }
  now rewrite E.
Qed.

Lemma updateWithDirection_falsy_argument_witness :
  _updateWithDirection (Str "") (set_layout (Str "column") (constructor fresh_base))
  = _updateWithDirection Undefined
      (set_layout (Str "column") (constructor fresh_base)).
Proof.
  apply updateWithDirection_falsy_argument. reflexivity.
Defined.

(** ** The lifecycle hooks *)

Example ngOnChanges_other_input :
  ngOnChanges layoutXs_changed (constructor fresh_base) = Ok (constructor fresh_base).
Proof. reflexivity. Qed.

Example ngOnChanges_layout_input :
  ngOnChanges layout_changed (set_layout (Str "column") (constructor fresh_base))
  = _updateWithDirection Undefined
      (set_layout (Str "column") (constructor fresh_base)).
Proof. reflexivity. Qed.

Lemma not_null_is_Some {A : Type} (entry : option A) :
  not_null entry = true <-> is_Some entry.
Proof.
  destruct entry; simpl; split; intros H; try reflexivity; try discriminate.
  - now eexists.
  - now destruct H.
Qed.

(** X12. A change-detection run is the update of an omitted argument when
    the changes include the layout input or a media-query activation exists,
    and otherwise it leaves the directive untouched: no style applied,
    nothing announced. The values recorded in the changes are not read: only
    the presence of the layout key counts, and under an activation not even
    that. It raises only through that update: exactly when it runs the
    update and the resolved value is truthy and not a string. *)
Theorem ngOnChanges_effect (changes : gmap string SimpleChange)
  (this : LayoutDirective) :
  (is_Some (changes !! "layout") \/ is_Some (_mqActivation (super this)) ->
   ngOnChanges changes this = _updateWithDirection Undefined this)
  /\ (changes !! "layout" = None -> _mqActivation (super this) = None ->
      ngOnChanges changes this = Ok this)
  /\ (forall changes' : gmap string SimpleChange,
        (is_Some (changes !! "layout") <-> is_Some (changes' !! "layout")) ->
        ngOnChanges changes' this = ngOnChanges changes this)
  /\ (forall changes' : gmap string SimpleChange,
        is_Some (_mqActivation (super this)) ->
        ngOnChanges changes' this = ngOnChanges changes this)
  /\ (accepted (resolve_value Undefined this) = true ->
      exists this', ngOnChanges changes this = Ok this')
  /\ (ngOnChanges changes this = Raise TypeError
      <-> (is_Some (changes !! "layout")
           \/ is_Some (_mqActivation (super this)))
          /\ accepted (resolve_value Undefined this) = false).
Proof.
  assert (Hgate : not_null (changes !! "layout")
                  || not_null (_mqActivation (super this)) = true
                  <-> is_Some (changes !! "layout")
                      \/ is_Some (_mqActivation (super this))).
  { now rewrite orb_true_iff, !not_null_is_Some. }
  split; [|split; [|split; [|split; [|split]]]].
  - intros H. unfold ngOnChanges. apply Hgate in H. now rewrite H.
  - intros Hlayout Hmq. unfold ngOnChanges. now rewrite Hlayout, Hmq.
  - intros changes' H. unfold ngOnChanges.
    rewrite <- !not_null_is_Some in H.
    destruct (not_null (changes !! "layout")),
             (not_null (changes' !! "layout")); try reflexivity.
    + destruct H as [H _]. now specialize (H eq_refl).
    + destruct H as [_ H]. now specialize (H eq_refl).
  - intros changes' H. unfold ngOnChanges.
    apply not_null_is_Some in H. now rewrite H, !orb_true_r.
  - intros Hok. unfold ngOnChanges. destruct (_ || _); [|now eexists].
    destruct (updateWithDirection_shape Undefined this Hok)
      as (d & w & _ & _ & _ & Hrun).
    rewrite Hrun. now eexists.
  - rewrite <- Hgate. unfold ngOnChanges.
    destruct (_ || _); split.
    + intros Hraise. split; [reflexivity|].
      destruct (accepted (resolve_value Undefined this)) eqn:Hok; [|reflexivity].
      destruct (updateWithDirection_shape Undefined this Hok)
        as (d & w & _ & _ & _ & Hrun).
      rewrite Hrun in Hraise. discriminate.
    + intros [_ Hno]. now apply updateWithDirection_raises.
    + discriminate.
    + intros [Hgate' _]. discriminate.
Qed.

Lemma ngOnChanges_effect_witness :
  ngOnChanges layout_changed (constructor fresh_base)
  = _updateWithDirection Undefined (constructor fresh_base)
  /\ ngOnChanges layoutXs_changed (constructor fresh_base)
     = Ok (constructor fresh_base)
  /\ ngOnChanges layout_changed (constructor number_base) = Raise TypeError.
Proof.
  split; [|split].
  - destruct (ngOnChanges_effect layout_changed (constructor fresh_base))
      as (Hupdate & _).
    apply Hupdate. left. now eexists.
  - destruct (ngOnChanges_effect layoutXs_changed (constructor fresh_base))
      as (_ & Hskip & _).
    apply Hskip; reflexivity.
  - destruct (ngOnChanges_effect layout_changed (constructor number_base))
      as (_ & _ & _ & _ & _ & Hraise).
    apply Hraise. split; [left; now eexists | reflexivity].
Defined.

Lemma next_announces_directions (direction : value) (subject : BehaviorSubject.t) :
  In direction LAYOUT_VALUES ->
  announces_directions subject ->
  announces_directions (BehaviorSubject.next direction subject).
Proof.
  intros Hd [Hvalue Hreceived]. split; [exact Hd|].
  cbn [BehaviorSubject.next BehaviorSubject.observers].
  induction Hreceived as [|received rest Hhead _ IH]; [constructor|].
  cbn [map]. constructor; [|exact IH].
  apply Forall_app. split; [exact Hhead|].
  constructor; [exact Hd | constructor].
Qed.

Lemma subscribe_announces_directions (subject : BehaviorSubject.t) :
  announces_directions subject ->
  announces_directions (BehaviorSubject.subscribe subject).
Proof.
  intros [Hvalue Hreceived]. split; [exact Hvalue|].
  cbn [BehaviorSubject.subscribe BehaviorSubject.observers].
  apply Forall_app. split; [exact Hreceived|].
  constructor; [|constructor]. constructor; [exact Hvalue | constructor].
Qed.

Lemma after_update_announces_directions
  (value : value) (this : LayoutDirective) :
  announces_directions (_announcer this) ->
  announces_directions
    (_announcer (after (_updateWithDirection value this) this)).
Proof.
  intros Hinv. destruct (accepted (resolve_value value this)) eqn:Hok.
  - destruct (updateWithDirection_shape value this Hok)
      as (d & w & _ & Hd & _ & Hrun).
    rewrite Hrun. cbn [after _announcer].
    apply next_announces_directions;
      [now apply direction_names_values | exact Hinv].
  - rewrite updateWithDirection_raises by exact Hok. exact Hinv.
Qed.

Lemma step_announces_directions (e : event) (this : LayoutDirective) :
  announces_directions (_announcer this) ->
  announces_directions (_announcer (after (step e this) this)).
Proof.
  intros Hinv. destruct e as [changes|changes| |base]; cbn [step].
  - unfold ngOnChanges. destruct (_ || _).
    + now apply after_update_announces_directions.
    + exact Hinv.
  - now apply after_update_announces_directions.
  - now apply subscribe_announces_directions.
  - exact Hinv.
Qed.

Example run_events :
  BehaviorSubject.observers
    (_announcer
       (run [Subscribe; Changes layout_changed;
             Base number_base; Changes layout_changed;
             Base (activated_base (Str "Row-Reverse none"));
             Media {| MediaChange.value := Str "xs" |};
             Subscribe] (constructor fresh_base)))
  = [[Str "row"; Str "row"; Str "row-reverse"]; [Str "row-reverse"]].
Proof. reflexivity. Qed.

Example step_raises :
  step (Changes layout_changed) (constructor number_base) = Raise TypeError.
Proof. reflexivity. Qed.

(** X13. Over any sequence of change-detection runs, media-query changes,
    subscriptions and changes made to the base part of the object (whatever
    gets cached there, values that make a hook raise included), starting
    from construction, the announcer always holds one of the four directions
    and every subscriber has only ever received directions. *)
Theorem run_announces_directions (events : list event) (base : BaseFxDirective) :
  announces_directions (_announcer (run events (constructor base))).
Proof.
  assert (Hstart : announces_directions (_announcer (constructor base))).
  { split; [simpl; tauto | constructor]. }
  generalize dependent (constructor base).
  induction events as [|e events IH]; intros this Hinv; [exact Hinv|].
  cbn [run]. apply IH. now apply step_announces_directions.
Qed.
